(** * Duffy tenant administration: controllers and admin context

    A shallow embedding of [duffy/app/controllers/tenant.py] (the tenant
    controller) and [duffy/admin.py] (the [AdminContext] used by the CLI),
    with the properties of the tenant CRUD facade proved about it.

    Python objects are modelled by a small [value] type, exceptions by
    [exn], and code that runs against a database session by a state and
    error monad [M] over [Session]. *)

From Stdlib Require Import ZArith List String Bool Lia.
Import ListNotations.

Open Scope string_scope.
Open Scope list_scope.
Open Scope Z_scope.

(** ** Data model *)

(** Modelled from the spec: the tenant record
    ([duffy.database.model.Tenant], declared outside the two modules), with
    the attributes of the data model. Nullable columns are options; time
    spans are counted in seconds. *)
Module Tenant.

Record t := mk {
  id : Z;
  name : string;
  is_admin : bool;
  api_key : option string;
  ssh_key : option string;
  active : bool;
  node_quota : option Z;
  session_lifetime : option Z;
  session_lifetime_max : option Z
}.

Definition set_id (v : Z) (r : t) : t :=
  mk v (name r) (is_admin r) (api_key r) (ssh_key r) (active r)
     (node_quota r) (session_lifetime r) (session_lifetime_max r).

End Tenant.

(** The creation payload ([duffy.api_models.TenantCreateModel]). *)
Module TenantCreateModel.

Record t := mk {
  name : string;
  is_admin : bool;
  api_key : option string;
  ssh_key : option string;
  node_quota : option Z;
  session_lifetime : option Z;
  session_lifetime_max : option Z
}.

End TenantCreateModel.

(** The retirement payload ([duffy.api_models.TenantRetireModel]). *)
Module TenantRetireModel.

Record t := mk { active : bool }.

End TenantRetireModel.

(** The partial-update payload ([duffy.api_models.TenantUpdateModel]): a
    field is [None] when it was not passed, [Some None] when it was passed
    as null and [Some (Some v)] when it was passed as a value. *)
Module TenantUpdateModel.

Record t := mk {
  api_key : option (option string);
  ssh_key : option (option string);
  node_quota : option (option Z);
  session_lifetime : option (option Z);
  session_lifetime_max : option (option Z)
}.

End TenantUpdateModel.

Set Warnings "-register-all".

(** Python values that travel through the two modules. [VUnset] is the
    sentinel [duffy.util.UNSET]. *)
Inductive value :=
| VNone
| VUnset
| VBool (b : bool)
| VInt (z : Z)
| VStr (s : string)
| VTimedelta (seconds : Z)
| VTenant (t : Tenant.t)
| VList (items : list value)
| VDict (items : list (string * value))
| VAdminContext
| VFakeAPITenant
| VSession
| VTenantCreateModel (m : TenantCreateModel.t)
| VTenantRetireModel (m : TenantRetireModel.t)
| VTenantUpdateModel (m : TenantUpdateModel.t).

(** Exceptions raised in the two modules or by what they call. *)
Inductive exn :=
| HTTPException (status_code : Z) (detail : option string)
| IntegrityError (message : string)
| MultipleResultsFound
| TypeError (keyword : string)
| AttributeError (name : string)
| ValidationError (field : string).

Inductive outcome (A : Type) :=
| Return (a : A)
| Raise (e : exn).

Arguments Return {A} a.
Arguments Raise {A} e.

Definition HTTP_200_OK : Z := 200.
Definition HTTP_201_CREATED : Z := 201.
Definition HTTP_404_NOT_FOUND : Z := 404.
Definition HTTP_409_CONFLICT : Z := 409.

(** ** The store *)

Record Database := mkDatabase {
  rows : list Tenant.t;
  next_id : Z
}.

(** Work staged in a session and not yet flushed. *)
Inductive op :=
| OpAdd (t : Tenant.t)
| OpUpdate (t : Tenant.t)
| OpDelete (t : Tenant.t).

(** A session: the committed state it works on and its staged work. *)
Record Session := mkSession {
  durable : Database;
  staged : list op
}.

(** The state and error monad of code that runs against a session. *)
Definition M (A : Type) : Type := Session -> outcome A * Session.

Definition ret {A} (a : A) : M A := fun s => (Return a, s).

Definition raise {A} (e : exn) : M A := fun s => (Raise e, s).

Definition bind {A B} (m : M A) (k : A -> M B) : M B :=
  fun s =>
    match m s with
    | (Return a, s') => k a s'
    | (Raise e, s') => (Raise e, s')
    end.

(** [try m except e: h e] *)
Definition try_except {A} (m : M A) (h : exn -> M A) : M A :=
  fun s =>
    match m s with
    | (Return a, s') => (Return a, s')
    | (Raise e, s') => h e s'
    end.

Declare Scope py_scope.
Delimit Scope py_scope with py.
Notation "x <- m ;; k" := (bind m (fun x => k))
  (at level 100, m at next level, right associativity) : py_scope.
Notation "m ;;; k" := (bind m (fun _ => k))
  (at level 100, right associativity) : py_scope.
Open Scope py_scope.

(** [Result.scalar_one_or_none()] *)
Definition scalar_one_or_none {A} (results : list A) : outcome (option A) :=
  match results with
  | [] => Return None
  | [x] => Return (Some x)
  | _ :: _ :: _ => Raise MultipleResultsFound
  end.

Definition has_id (i : Z) (r : Tenant.t) : bool := Tenant.id r =? i.

Definition has_name (n : string) (r : Tenant.t) : bool :=
  String.eqb (Tenant.name r) n.

(** The table with the row of [t]'s identity rewritten to [t]. *)
Definition replace_row (t : Tenant.t) (l : list Tenant.t) : list Tenant.t :=
  map (fun r => if has_id (Tenant.id t) r then t else r) l.

(** The table without the row of [t]'s identity. *)
Definition remove_row (t : Tenant.t) (l : list Tenant.t) : list Tenant.t :=
  filter (fun r => negb (has_id (Tenant.id t) r)) l.

(** The store keeps identities and names unique and hands out identities
    from a counter. *)
Definition wf (db : Database) : Prop :=
  NoDup (map Tenant.id (rows db)) /\
  NoDup (map Tenant.name (rows db)) /\
  Forall (fun r => Tenant.id r < next_id db) (rows db).

(** What the two modules import from the rest of the package and
    from their libraries. *)
Class Imported := {
  (** [http.HTTPStatus(status_code).phrase], the detail of an
      [HTTPException] raised without one *)
  status_phrase : Z -> string;
  (** [str(exc)] of the store's [IntegrityError] for a rejected row *)
  integrity_message : Tenant.t -> string;
  (** the column defaults of [Tenant], taken by every attribute the
      constructor call leaves out *)
  column_defaults : Tenant.t;
  (** [TenantCreateModel.api_key] when the caller passes none *)
  create_api_key_default : option string
}.


(** ** Sessions *)

Section Sessions.

Context {imp : Imported}.

(** [exc.detail] *)
Definition exc_detail (status_code : Z) (detail : option string) : string :=
  match detail with
  | Some d => d
  | None => status_phrase status_code
  end.

(** Modelled from the spec: the constraints of the tenants table, which is
    declared outside the two modules: the identity is assigned by the store
    and the name is unique. One statement against the table: an INSERT
    assigns the next identity and is rejected when the name is taken; an
    UPDATE rewrites the row with the object's identity and is rejected when
    it would duplicate a name; a DELETE removes the row. Where a new row is
    placed and which identity it gets are choices of the model: the spec
    says only that the identity is assigned by the store and unique, and
    leaves the order of the table open. *)
Definition apply_op (db : Database) (o : op) : outcome (Database * list Tenant.t) :=
  match o with
  | OpAdd t =>
      if existsb (has_name (Tenant.name t)) (rows db)
      then Raise (IntegrityError (integrity_message t))
      else
        let t' := Tenant.set_id (next_id db) t in
        Return (mkDatabase (rows db ++ [t']) (next_id db + 1), [t'])
  | OpUpdate t =>
      if existsb (fun r => has_name (Tenant.name t) r && negb (has_id (Tenant.id t) r))
                 (rows db)
      then Raise (IntegrityError (integrity_message t))
      else
        Return (mkDatabase (replace_row t (rows db)) (next_id db), [])
  | OpDelete t =>
      Return (mkDatabase (remove_row t (rows db)) (next_id db), [])
  end.

(** The staged work in order; the result carries the rows inserted, with
    the identities the store gave them. *)
Fixpoint flush (ops : list op) (db : Database) : outcome (Database * list Tenant.t) :=
  match ops with
  | [] => Return (db, [])
  | o :: ops' =>
      match apply_op db o with
      | Raise e => Raise e
      | Return (db', ins) =>
          match flush ops' db' with
          | Raise e => Raise e
          | Return (db'', ins') => Return (db'', ins ++ ins')
          end
      end
  end.

(** [async_session_maker()] / [sync_session_maker()]: a session with
    nothing staged. *)
Definition session_maker (db : Database) : Session := mkSession db [].

(** [session.execute(select(Tenant))]: the committed rows. The controllers
    query before they stage anything. *)
Definition execute_select : M (list Tenant.t) :=
  fun s => (Return (rows (durable s)), s).

(** [session.execute(select(Tenant).filter_by(id=id))] *)
Definition execute_select_by_id (id : Z) : M (list Tenant.t) :=
  fun s => (Return (filter (has_id id) (rows (durable s))), s).

(** [session.add(tenant)] *)
Definition add (t : Tenant.t) : M unit :=
  fun s => (Return tt, mkSession (durable s) (staged s ++ [OpAdd t])).

(** [session.delete(tenant)] *)
Definition delete (t : Tenant.t) : M unit :=
  fun s => (Return tt, mkSession (durable s) (staged s ++ [OpDelete t])).

(** Attribute assignment on a persistent object: the object is dirty. *)
Definition modify (t : Tenant.t) : M unit :=
  fun s => (Return tt, mkSession (durable s) (staged s ++ [OpUpdate t])).

(** [session.commit()]: all staged work becomes durable, or none of it does
    and the store's error is raised; either way nothing stays staged. The
    result is the persistent state of the objects inserted. *)
Definition commit : M (list Tenant.t) :=
  fun s =>
    match flush (staged s) (durable s) with
    | Return (db', ins) => (Return ins, mkSession db' [])
    | Raise e => (Raise e, mkSession (durable s) [])
    end.

(** [session.rollback()] *)
Definition rollback (s : Session) : Session := mkSession (durable s) [].

(** The object [tenant] after a commit that inserted it: the flush wrote
    the assigned identity back into it. *)
Definition refreshed (inserted : list Tenant.t) (tenant : Tenant.t) : Tenant.t :=
  last inserted tenant.

End Sessions.

(** ** Python calls by keyword *)

Definition kwargs : Type := list (string * value).

Fixpoint lookup (k : string) (kw : kwargs) : option value :=
  match kw with
  | [] => None
  | (k', v) :: kw' => if String.eqb k' k then Some v else lookup k kw'
  end.

Definition mem (k : string) (ks : list string) : bool :=
  existsb (String.eqb k) ks.

(** A controller function as the callable it is: the parameters of its
    [def] and its body on the bound arguments. The functions of the
    controller module all have a fixed list of named parameters; a
    signature with a var-keyword parameter is not modelled. *)
Record controller_function := mkFunction {
  parameters : list string;
  body : kwargs -> M value
}.

(** [f] called with the keywords [kw]: a keyword the signature lacks is a
    [TypeError]. *)
Definition call (f : controller_function) (kw : kwargs) : M value :=
  match find (fun k => negb (mem k (parameters f))) (map fst kw) with
  | Some k => raise (TypeError k)
  | None => body f kw
  end.

Definition tenant_result (action : string) (tenant : Tenant.t) : value :=
  VDict [("action", VStr action); ("tenant", VTenant tenant)].

Definition tenant_result_collection (action : string) (tenants : list Tenant.t) : value :=
  VDict [("action", VStr action); ("tenants", VList (map VTenant tenants))].

(** ** The tenant controller ([duffy/app/controllers/tenant.py]) *)

Module tenant.

Section Controller.

Context {imp : Imported}.

(** [Tenant(name=..., is_admin=..., api_key=..., ssh_key=...)] *)
Definition Tenant_new (name : string) (is_admin : bool)
  (api_key ssh_key : option string) : Tenant.t :=
  Tenant.mk (Tenant.id column_defaults) name is_admin api_key ssh_key
    (Tenant.active column_defaults) (Tenant.node_quota column_defaults)
    (Tenant.session_lifetime column_defaults)
    (Tenant.session_lifetime_max column_defaults).

Definition get_all_tenants : M value :=
  results <- execute_select ;;
  ret (tenant_result_collection "get" results).

Definition get_tenant (id : Z) : M value :=
  results <- execute_select_by_id id ;;
  match scalar_one_or_none results with
  | Raise e => raise e
  | Return None => raise (HTTPException HTTP_404_NOT_FOUND None)
  | Return (Some tenant) => ret (tenant_result "get" tenant)
  end.

Definition create_tenant (data : TenantCreateModel.t) : M value :=
  let tenant :=
    Tenant_new (TenantCreateModel.name data) (TenantCreateModel.is_admin data)
               (TenantCreateModel.api_key data) (TenantCreateModel.ssh_key data) in
  add tenant ;;;
  inserted <- try_except commit
                (fun exc =>
                   match exc with
                   | IntegrityError msg => raise (HTTPException HTTP_409_CONFLICT (Some msg))
                   | _ => raise exc
                   end) ;;
  ret (tenant_result "post" (refreshed inserted tenant)).

Definition delete_tenant (id : Z) : M value :=
  results <- execute_select_by_id id ;;
  match scalar_one_or_none results with
  | Raise e => raise e
  | Return None => raise (HTTPException HTTP_404_NOT_FOUND None)
  | Return (Some tenant) =>
      delete tenant ;;;
      commit ;;;
      ret (tenant_result "delete" tenant)
  end.

(** *** The routes *)

Record response := mkResponse {
  status : Z;
  content : value
}.

(** A request served by the framework: the endpoint runs on a session of
    its own, its result is sent with the route's status code, and an
    [HTTPException] is sent with the status code and detail it carries. *)
Definition serve (status_code : Z) (endpoint : M value) (db : Database)
  : response * Database :=
  match endpoint (session_maker db) with
  | (Return v, s) => (mkResponse status_code v, durable s)
  | (Raise (HTTPException sc d), s) =>
      (mkResponse sc (VDict [("detail", VStr (exc_detail sc d))]), durable s)
  | (Raise _, s) => (mkResponse 500 (VStr "Internal Server Error"), durable s)
  end.

(** [@router.get] on the collection *)
Definition GET_tenants : Database -> response * Database :=
  serve HTTP_200_OK get_all_tenants.

(** [@router.get] on [/{id}] *)
Definition GET_tenants_id (id : Z) : Database -> response * Database :=
  serve HTTP_200_OK (get_tenant id).

(** [@router.post] on the collection, [status_code=HTTP_201_CREATED] *)
Definition POST_tenants (data : TenantCreateModel.t) : Database -> response * Database :=
  serve HTTP_201_CREATED (create_tenant data).

(** [@router.delete] on [/{id}] *)
Definition DELETE_tenants_id (id : Z) : Database -> response * Database :=
  serve HTTP_200_OK (delete_tenant id).

(** *** The controller functions as callables *)

Definition def_get_all_tenants : controller_function :=
  mkFunction ["db_async_session"] (fun _ => get_all_tenants).

Definition def_get_tenant : controller_function :=
  mkFunction ["id"; "db_async_session"]
    (fun kw =>
       match lookup "id" kw with
       | Some (VInt id) => get_tenant id
       | _ => raise (TypeError "id")
       end).

Definition def_create_tenant : controller_function :=
  mkFunction ["data"; "db_async_session"]
    (fun kw =>
       match lookup "data" kw with
       | Some (VTenantCreateModel data) => create_tenant data
       | _ => raise (TypeError "data")
       end).

Definition def_delete_tenant : controller_function :=
  mkFunction ["id"; "db_async_session"]
    (fun kw =>
       match lookup "id" kw with
       | Some (VInt id) => delete_tenant id
       | _ => raise (TypeError "id")
       end).

(** The functions the module defines, by name. Its other names (the
    router and the imports) are no functions of it; it defines no
    [update_tenant]. *)
Definition functions : list (string * controller_function) :=
  [("get_all_tenants", def_get_all_tenants);
   ("get_tenant", def_get_tenant);
   ("create_tenant", def_create_tenant);
   ("delete_tenant", def_delete_tenant)].

(** [tenant.name], for the name of a function: a name the module does not
    define is an [AttributeError]. *)
Definition getattr (name : string) : outcome controller_function :=
  match find (fun item => String.eqb (fst item) name) functions with
  | Some item => Return (snd item)
  | None => Raise (AttributeError name)
  end.

End Controller.

End tenant.

(** ** The admin context ([duffy/admin.py]) *)

(** An optional argument of [update_tenant]: left at the sentinel [UNSET],
    or passed, as [None] or as a value. *)
Inductive arg (A : Type) :=
| UNSET
| Passed (v : option A).

Arguments UNSET {A}.
Arguments Passed {A} v.

Definition arg_value {A} (inj : A -> value) (a : arg A) : value :=
  match a with
  | UNSET => VUnset
  | Passed None => VNone
  | Passed (Some v) => inj v
  end.

(** [value is not UNSET] *)
Definition is_not_UNSET (v : value) : bool :=
  match v with
  | VUnset => false
  | _ => true
  end.

Definition bind_outcome {A B} (o : outcome A) (k : A -> outcome B) : outcome B :=
  match o with
  | Return a => k a
  | Raise e => Raise e
  end.

Module AdminContext.

Section Admin.

Context {imp : Imported}.

Definition error_result (detail : string) : value :=
  VDict [("error", VDict [("detail", VStr detail)])].


Definition str_field (k : string) (kw : kwargs) : outcome (option (option string)) :=
  match lookup k kw with
  | None => Return None
  | Some VNone => Return (Some None)
  | Some (VStr s) => Return (Some (Some s))
  | Some _ => Raise (ValidationError k)
  end.

Definition int_field (k : string) (kw : kwargs) : outcome (option (option Z)) :=
  match lookup k kw with
  | None => Return None
  | Some VNone => Return (Some None)
  | Some (VInt z) => Return (Some (Some z))
  | Some _ => Raise (ValidationError k)
  end.

Definition timedelta_field (k : string) (kw : kwargs) : outcome (option (option Z)) :=
  match lookup k kw with
  | None => Return None
  | Some VNone => Return (Some None)
  | Some (VTimedelta z) => Return (Some (Some z))
  | Some _ => Raise (ValidationError k)
  end.

(** Modelled from the spec: the constructor of [TenantUpdateModel], whose
    class is declared outside the two modules. Each of the five optional
    fields enters the payload when a keyword of its name is passed, with
    the value passed; a keyword that is no field of the class does not
    enter the payload. *)
Definition TenantUpdateModel_new (kw : kwargs) : outcome TenantUpdateModel.t :=
  bind_outcome (str_field "api_key" kw) (fun api_key =>
  bind_outcome (str_field "ssh_key" kw) (fun ssh_key =>
  bind_outcome (int_field "node_quota" kw) (fun node_quota =>
  bind_outcome (timedelta_field "session_lifetime" kw) (fun session_lifetime =>
  bind_outcome (timedelta_field "session_lifetime_max" kw) (fun session_lifetime_max =>
  Return (TenantUpdateModel.mk api_key ssh_key node_quota
            session_lifetime session_lifetime_max)))))).

(** Leaving [async with ... db_async_session.begin()]: the transaction is
    committed when the block completes and rolled back when it raises. *)
Definition end_transaction (r : outcome value) (s : Session) : outcome value * Session :=
  match r with
  | Return v =>
      match commit s with
      | (Return _, s') => (Return v, s')
      | (Raise e, s') => (Raise e, s')
      end
  | Raise e => (Raise e, rollback s)
  end.

(** The keywords of the call [controller_function(tenant=...,
    db_async_session=..., **kwargs)]; a keyword given twice is a
    [TypeError]. *)
Definition proxy_keywords (kw : kwargs) : outcome kwargs :=
  match find (fun k => mem k ["tenant"; "db_async_session"]) (map fst kw) with
  | Some k => Raise (TypeError k)
  | None => Return (("tenant", VFakeAPITenant) :: ("db_async_session", VSession) :: kw)
  end.

Definition proxy_controller_function_async (controller_function : controller_function)
  (kw : kwargs) (db : Database) : outcome value * Session :=
  let db_async_session := session_maker db in
  match proxy_keywords kw with
  | Raise e => end_transaction (Raise e) db_async_session
  | Return keywords =>
      match call controller_function keywords db_async_session with
      | (Return v, s) => end_transaction (Return v) s
      | (Raise (HTTPException status_code detail), s) =>
          end_transaction (Return (error_result (exc_detail status_code detail)))
                          (rollback s)
      | (Raise e, s) => end_transaction (Raise e) s
      end
  end.

(** [asyncio.run] runs the coroutine to completion; the session is closed
    and the committed state is what the call leaves behind. *)
Definition proxy_controller_function (controller_function : controller_function)
  (kw : kwargs) (db : Database) : outcome value * Database :=
  let (r, s) := proxy_controller_function_async controller_function kw db in
  (r, durable s).

Definition get_tenant_id (name : string) (db : Database) : outcome (option Z) :=
  scalar_one_or_none (map Tenant.id (filter (has_name name) (rows db))).

Definition list_tenants (db : Database) : outcome value * Database :=
  proxy_controller_function tenant.def_get_all_tenants [] db.

Definition show_tenant (name : string) (db : Database) : outcome value * Database :=
  match get_tenant_id name db with
  | Raise e => (Raise e, db)
  | Return None => (Return (error_result "Tenant not found"), db)
  | Return (Some tenant_id) =>
      proxy_controller_function tenant.def_get_tenant [("id", VInt tenant_id)] db
  end.

Definition create_tenant (name ssh_key : string)
  (node_quota session_lifetime session_lifetime_max : option Z) (is_admin : bool)
  (db : Database) : outcome value * Database :=
  let tenant_data :=
    TenantCreateModel.mk name is_admin create_api_key_default (Some ssh_key)
      node_quota session_lifetime session_lifetime_max in
  proxy_controller_function tenant.def_create_tenant
    [("data", VTenantCreateModel tenant_data)] db.

(** The first argument of the delegating call is the attribute
    [tenant.update_tenant]; it is evaluated before the call. *)
Definition retire_unretire_tenant (name : string) (retire : bool) (db : Database)
  : outcome value * Database :=
  match get_tenant_id name db with
  | Raise e => (Raise e, db)
  | Return None => (Return (error_result "Tenant not found"), db)
  | Return (Some tenant_id) =>
      let retire_data := TenantRetireModel.mk (negb retire) in
      match tenant.getattr "update_tenant" with
      | Raise e => (Raise e, db)
      | Return update_tenant =>
          proxy_controller_function update_tenant
            [("id", VInt tenant_id); ("data", VTenantRetireModel retire_data)] db
      end
  end.

(** [locals()] of [update_tenant] after [tenant_id] is assigned: the
    parameters in order, then [tenant_id]. *)
Definition update_tenant_locals (name : string) (api_key ssh_key : arg string)
  (node_quota session_lifetime session_lifetime_max : arg Z) (tenant_id : Z) : kwargs :=
  [("self", VAdminContext);
   ("name", VStr name);
   ("api_key", arg_value VStr api_key);
   ("ssh_key", arg_value VStr ssh_key);
   ("node_quota", arg_value VInt node_quota);
   ("session_lifetime", arg_value VTimedelta session_lifetime);
   ("session_lifetime_max", arg_value VTimedelta session_lifetime_max);
   ("tenant_id", VInt tenant_id)].

(** The dictionary [data]: the items of [locals()] whose key is not
    ["name"] and whose value is not [UNSET]. *)
Definition update_tenant_data (locals : kwargs) : kwargs :=
  filter (fun item => negb (String.eqb (fst item) "name") && is_not_UNSET (snd item))
         locals.

(** The arguments of the delegating call are evaluated in order: the
    attribute [tenant.update_tenant] first, then the payload
    [TenantUpdateModel] built from [data]. *)
Definition update_tenant (name : string) (api_key ssh_key : arg string)
  (node_quota session_lifetime session_lifetime_max : arg Z) (db : Database)
  : outcome value * Database :=
  match get_tenant_id name db with
  | Raise e => (Raise e, db)
  | Return None => (Return (error_result "Tenant not found"), db)
  | Return (Some tenant_id) =>
      let data :=
        update_tenant_data
          (update_tenant_locals name api_key ssh_key node_quota
             session_lifetime session_lifetime_max tenant_id) in
      match tenant.getattr "update_tenant" with
      | Raise e => (Raise e, db)
      | Return update_tenant =>
          match TenantUpdateModel_new data with
          | Raise e => (Raise e, db)
          | Return payload =>
              proxy_controller_function update_tenant
                [("id", VInt tenant_id); ("data", VTenantUpdateModel payload)] db
          end
      end
  end.

End Admin.

End AdminContext.




(** ** A concrete environment and store, for evaluation *)

Definition example_imported : Imported := {|
  status_phrase := fun sc => if sc =? 404 then "Not Found" else "Conflict";
  integrity_message := fun t => "UNIQUE constraint failed: tenants.name";
  column_defaults := Tenant.mk 0 "" false None None true None None None;
  create_api_key_default := None
|}.

Definition alice : Tenant.t :=
  Tenant.mk 1 "alice" false (Some "key-a") (Some "ssh-rsa AAA") true None None None.

Definition example_db : Database := mkDatabase [alice] 2.

Definition empty_db : Database := mkDatabase [] 1.

Definition bob_data : TenantCreateModel.t :=
  TenantCreateModel.mk "bob" false None (Some "ssh-rsa BBB") (Some 3) None None.

Definition bob : Tenant.t :=
  Tenant.mk 2 "bob" false None (Some "ssh-rsa BBB") true None None None.

Definition absent_id : kwargs := [("id", VInt 7)].

(** A controller function with the caller-context parameter: the body of
    [get_tenant] under a signature that accepts [tenant]. *)
Definition def_get_tenant_as_caller {imp : Imported} : controller_function :=
  mkFunction ["id"; "db_async_session"; "tenant"] (body tenant.def_get_tenant).

(** A controller function that commits without translating the store's
    refusal. *)
Definition def_add_and_commit {imp : Imported} (t : Tenant.t) : controller_function :=
  mkFunction ["tenant"; "db_async_session"]
    (fun _ => add t ;;; commit ;;; ret VNone).

(** ** Facts about the store *)

Lemma has_id_true (i : Z) (r : Tenant.t) : has_id i r = true <-> Tenant.id r = i.
Proof. unfold has_id. apply Z.eqb_eq. Qed.

Lemma has_id_false (i : Z) (r : Tenant.t) : has_id i r = false <-> Tenant.id r <> i.
Proof. unfold has_id. apply Z.eqb_neq. Qed.

Lemma has_name_true (n : string) (r : Tenant.t) : has_name n r = true <-> Tenant.name r = n.
Proof. unfold has_name. apply String.eqb_eq. Qed.

Lemma has_name_false (n : string) (r : Tenant.t) : has_name n r = false <-> Tenant.name r <> n.
Proof. unfold has_name. apply String.eqb_neq. Qed.

Lemma existsb_false {A} (f : A -> bool) (l : list A) :
  existsb f l = false <-> forall x, In x l -> f x = false.
Proof.
  induction l as [|a l IH]; simpl.
  - split; [intros _ x []|reflexivity].
  - rewrite orb_false_iff, IH. split.
    + intros [Ha Hl] x [<- | Hx]; auto.
    + intros H. split; [apply H; now left|intros x Hx; apply H; now right].
Qed.

Lemma filter_nothing {A} (f : A -> bool) (l : list A) :
  (forall x, In x l -> f x = false) -> filter f l = [].
Proof.
  induction l as [|a l IH]; intros H; simpl.
  - reflexivity.
  - rewrite (H a (or_introl eq_refl)). apply IH. intros x Hx. apply H. now right.
Qed.

(** A key that is unique in the table selects one row. *)
Lemma filter_unique_key {K} (key : Tenant.t -> K) (test : K -> Tenant.t -> bool)
  (l : list Tenant.t) (t : Tenant.t) :
  (forall k r, test k r = true <-> key r = k) ->
  NoDup (map key l) -> In t l -> filter (test (key t)) l = [t].
Proof.
  intros Htest. induction l as [|a l IH]; intros Hnd Hin; simpl in *.
  - contradiction.
  - apply NoDup_cons_iff in Hnd as [Hnotin Hnd].
    destruct Hin as [-> | Hin].
    + replace (test (key t) t) with true by (symmetry; now apply Htest).
      f_equal. apply filter_nothing. intros x Hx.
      destruct (test (key t) x) eqn:E; [|reflexivity].
      apply Htest in E. exfalso. apply Hnotin. rewrite <- E. now apply in_map.
    + destruct (test (key t) a) eqn:E.
      * apply Htest in E. exfalso. apply Hnotin. rewrite E. now apply in_map.
      * now apply IH.
Qed.

Lemma filter_has_id (l : list Tenant.t) (t : Tenant.t) :
  NoDup (map Tenant.id l) -> In t l -> filter (has_id (Tenant.id t)) l = [t].
Proof. apply filter_unique_key. intros k r. apply has_id_true. Qed.

Lemma filter_has_name (l : list Tenant.t) (t : Tenant.t) :
  NoDup (map Tenant.name l) -> In t l -> filter (has_name (Tenant.name t)) l = [t].
Proof. apply filter_unique_key. intros k r. apply has_name_true. Qed.

Lemma replace_row_ids (t : Tenant.t) (l : list Tenant.t) :
  map Tenant.id (replace_row t l) = map Tenant.id l.
Proof.
  unfold replace_row. rewrite map_map. apply map_ext. intros r.
  destruct (has_id (Tenant.id t) r) eqn:E; [|reflexivity].
  apply has_id_true in E. now rewrite E.
Qed.

Lemma replace_row_absent (t : Tenant.t) (l : list Tenant.t) :
  ~ In (Tenant.id t) (map Tenant.id l) -> replace_row t l = l.
Proof.
  unfold replace_row. induction l as [|a l IH]; intros H; simpl in *.
  - reflexivity.
  - destruct (has_id (Tenant.id t) a) eqn:E.
    + apply has_id_true in E. exfalso. apply H. now left.
    + f_equal. apply IH. intros Hin. apply H. now right.
Qed.

Lemma replace_row_In (t r : Tenant.t) (l : list Tenant.t) :
  In r (replace_row t l) -> r = t \/ (In r l /\ Tenant.id r <> Tenant.id t).
Proof.
  unfold replace_row. intros H. apply in_map_iff in H as [x [Hx Hin]].
  destruct (has_id (Tenant.id t) x) eqn:E.
  - now left.
  - right. subst x. split; [assumption|]. now apply has_id_false.
Qed.

(** Removing a row keeps every key of the table unique. *)
Lemma remove_row_keeps_unique {K} (key : Tenant.t -> K) (t : Tenant.t)
  (table : list Tenant.t) :
  NoDup (map key table) -> NoDup (map key (remove_row t table)).
Proof.
  unfold remove_row. induction table as [|a table IH]; intros H; simpl in *.
  - constructor.
  - apply NoDup_cons_iff in H as [Hfresh H].
    destruct (negb (has_id (Tenant.id t) a)); simpl; [|now apply IH].
    constructor; [|now apply IH].
    intros Hin. apply Hfresh. apply in_map_iff in Hin as [x [Hx Hin]].
    apply filter_In in Hin as [Hin _]. rewrite <- Hx. now apply in_map.
Qed.

Section SessionFacts.

Context {imp : Imported}.

Lemma replace_row_names (t : Tenant.t) (l : list Tenant.t) :
  NoDup (map Tenant.id l) -> NoDup (map Tenant.name l) ->
  existsb (fun r => has_name (Tenant.name t) r && negb (has_id (Tenant.id t) r)) l = false ->
  NoDup (map Tenant.name (replace_row t l)).
Proof.
  induction l as [|a l IH]; intros Hid Hname Hchk; simpl in *.
  - constructor.
  - apply NoDup_cons_iff in Hid as [Hid1 Hid].
    apply NoDup_cons_iff in Hname as [Hname1 Hname].
    apply orb_false_iff in Hchk as [Ha Hchk].
    destruct (has_id (Tenant.id t) a) eqn:E.
    + apply has_id_true in E.
      rewrite replace_row_absent by (rewrite <- E; assumption).
      constructor; [|assumption].
      intros Hin. apply in_map_iff in Hin as [x [Hx Hin]].
      rewrite existsb_false in Hchk. specialize (Hchk x Hin).
      replace (has_name (Tenant.name t) x) with true in Hchk
        by (symmetry; now apply has_name_true).
      simpl in Hchk. apply negb_false_iff, has_id_true in Hchk.
      apply Hid1. rewrite E, <- Hchk. now apply in_map.
    + constructor; [|now apply IH].
      intros Hin. apply in_map_iff in Hin as [x [Hx Hin]].
      apply replace_row_In in Hin as [-> | [Hin _]].
      * simpl in Ha. rewrite andb_true_r in Ha.
        apply has_name_false in Ha. congruence.
      * apply Hname1. rewrite <- Hx. now apply in_map.
Qed.

(** Every statement keeps the table well formed. *)
Lemma apply_op_wf (db db' : Database) (o : op) (ins : list Tenant.t) :
  wf db -> apply_op db o = Return (db', ins) -> wf db'.
Proof.
  intros (Hid & Hname & Hlt) H. destruct o as [t|t|t]; simpl in H.
  - destruct (existsb (has_name (Tenant.name t)) (rows db)) eqn:E; [discriminate|].
    inversion H; subst; clear H. unfold wf; simpl.
    rewrite !map_app; simpl. repeat split.
    + apply NoDup_app; [assumption|repeat constructor; auto|].
      intros i Hi [<- | []]. apply in_map_iff in Hi as [x [Hx Hin]].
      rewrite Forall_forall in Hlt. specialize (Hlt x Hin). lia.
    + apply NoDup_app; [assumption|repeat constructor; auto|].
      intros n Hn [<- | []]. apply in_map_iff in Hn as [x [Hx Hin]].
      rewrite existsb_false in E. specialize (E x Hin).
      apply has_name_false in E. congruence.
    + apply Forall_app. split.
      * eapply Forall_impl; [|exact Hlt]. simpl. intros; lia.
      * constructor; [simpl; lia|constructor].
  - destruct (existsb _ (rows db)) eqn:E; [discriminate|].
    inversion H; subst; clear H. unfold wf; simpl. repeat split.
    + now rewrite replace_row_ids.
    + now apply replace_row_names.
    + rewrite Forall_forall in *. intros x Hx.
      assert (Hx' : In (Tenant.id x) (map Tenant.id (replace_row t (rows db))))
        by now apply in_map.
      rewrite replace_row_ids in Hx'. apply in_map_iff in Hx' as [y [Hy Hin]].
      rewrite <- Hy. now apply Hlt.
  - inversion H; subst; clear H. unfold wf; simpl. repeat split.
    + now apply remove_row_keeps_unique.
    + now apply remove_row_keeps_unique.
    + rewrite Forall_forall in *. intros x Hx. apply filter_In in Hx as [Hx _].
      now apply Hlt.
Qed.

Lemma flush_wf (ops : list op) :
  forall db db' ins, wf db -> flush ops db = Return (db', ins) -> wf db'.
Proof.
  induction ops as [|o ops IH]; intros db db' ins Hwf H; simpl in H.
  - now inversion H; subst.
  - destruct (apply_op db o) as [[db1 ins1]|e] eqn:E1; [|discriminate].
    destruct (flush ops db1) as [[db2 ins2]|e] eqn:E2; [|discriminate].
    inversion H; subst. eapply IH; [|exact E2]. eapply apply_op_wf; eauto.
Qed.

(** Flushing work staged last. *)
Lemma flush_app (ops : list op) (o : op) :
  forall db,
    flush (ops ++ [o]) db =
    match flush ops db with
    | Raise e => Raise e
    | Return (db', ins) =>
        match apply_op db' o with
        | Raise e => Raise e
        | Return (db'', ins') => Return (db'', ins ++ ins')
        end
    end.
Proof.
  induction ops as [|o1 ops IH]; intros db; simpl.
  - destruct (apply_op db o) as [[db' ins]|e]; [|reflexivity].
    now rewrite app_nil_r.
  - destruct (apply_op db o1) as [[db1 ins1]|e]; [|reflexivity].
    rewrite IH. destruct (flush ops db1) as [[db2 ins2]|e]; [|reflexivity].
    destruct (apply_op db2 o) as [[db3 ins3]|e]; [|reflexivity].
    now rewrite app_assoc.
Qed.

(** The store's only refusal is an integrity error. *)
Lemma flush_raises (ops : list op) :
  forall db e, flush ops db = Raise e -> exists msg, e = IntegrityError msg.
Proof.
  induction ops as [|o ops IH]; intros db e H; simpl in H.
  - discriminate.
  - destruct (apply_op db o) as [[db1 ins1]|e1] eqn:E1.
    + destruct (flush ops db1) as [[db2 ins2]|e2] eqn:E2; [discriminate|].
      inversion H; subst. eapply IH; eauto.
    + inversion H; subst. destruct o as [t|t|t]; simpl in E1.
      * destruct (existsb _ _); inversion E1. eauto.
      * destruct (existsb _ _); inversion E1. eauto.
      * discriminate.
Qed.

(** The committed state changes only in [commit], which keeps it well
    formed: well-formedness is an invariant of the store. *)
Lemma commit_wf (s s' : Session) (r : outcome (list Tenant.t)) :
  wf (durable s) -> commit s = (r, s') -> wf (durable s').
Proof.
  intros Hwf. unfold commit.
  destruct (flush (staged s) (durable s)) as [[db' ins]|e] eqn:E;
    intros H; inversion H; subst; simpl.
  - eapply flush_wf; eauto.
  - assumption.
Qed.

Lemma commit_nothing_staged (s : Session) :
  staged s = [] -> commit s = (Return [], s).
Proof. destruct s as [db ops]. simpl. intros ->. reflexivity. Qed.

End SessionFacts.

(** ** The controller functions *)

Section ControllerProperties.

Context {imp : Imported}.

Lemma get_tenant_absent (i : Z) (s : Session) :
  (forall r, In r (rows (durable s)) -> Tenant.id r <> i) ->
  tenant.get_tenant i s = (Raise (HTTPException HTTP_404_NOT_FOUND None), s).
Proof.
  intros H. unfold tenant.get_tenant, bind, execute_select_by_id.
  rewrite filter_nothing; [reflexivity|].
  intros r Hr. apply has_id_false. now apply H.
Qed.

Lemma get_tenant_present (t : Tenant.t) (s : Session) :
  wf (durable s) -> In t (rows (durable s)) ->
  tenant.get_tenant (Tenant.id t) s = (Return (tenant_result "get" t), s).
Proof.
  intros (Hid & _) Hin. unfold tenant.get_tenant, bind, execute_select_by_id.
  now rewrite filter_has_id.
Qed.

Lemma delete_tenant_absent (i : Z) (s : Session) :
  (forall r, In r (rows (durable s)) -> Tenant.id r <> i) ->
  tenant.delete_tenant i s = (Raise (HTTPException HTTP_404_NOT_FOUND None), s).
Proof.
  intros H. unfold tenant.delete_tenant, bind, execute_select_by_id.
  rewrite filter_nothing; [reflexivity|].
  intros r Hr. apply has_id_false. now apply H.
Qed.

Lemma get_tenant_id_absent (n : string) (db : Database) :
  (forall r, In r (rows db) -> Tenant.name r <> n) ->
  AdminContext.get_tenant_id n db = Return None.
Proof.
  intros H. unfold AdminContext.get_tenant_id.
  rewrite filter_nothing; [reflexivity|].
  intros r Hr. apply has_name_false. now apply H.
Qed.

Lemma get_tenant_id_present (t : Tenant.t) (db : Database) :
  wf db -> In t (rows db) ->
  AdminContext.get_tenant_id (Tenant.name t) db = Return (Some (Tenant.id t)).
Proof.
  intros (_ & Hname & _) Hin. unfold AdminContext.get_tenant_id.
  now rewrite filter_has_name.
Qed.

(** What [create_tenant] does, by the outcome of the flush of the work
    staged before it and of its own insert. *)
Lemma create_tenant_cases (data : TenantCreateModel.t) (s : Session) :
  let tenant :=
    tenant.Tenant_new (TenantCreateModel.name data) (TenantCreateModel.is_admin data)
      (TenantCreateModel.api_key data) (TenantCreateModel.ssh_key data) in
  tenant.create_tenant data s =
  match flush (staged s) (durable s) with
  | Raise e =>
      match e with
      | IntegrityError msg =>
          (Raise (HTTPException HTTP_409_CONFLICT (Some msg)), mkSession (durable s) [])
      | _ => (Raise e, mkSession (durable s) [])
      end
  | Return (db', ins) =>
      if existsb (has_name (TenantCreateModel.name data)) (rows db')
      then (Raise (HTTPException HTTP_409_CONFLICT (Some (integrity_message tenant))),
            mkSession (durable s) [])
      else
        let t := Tenant.set_id (next_id db') tenant in
        (Return (tenant_result "post" t),
         mkSession (mkDatabase (rows db' ++ [t]) (next_id db' + 1)) [])
  end.
Proof.
  intros tenant. unfold tenant.create_tenant, bind, add, try_except, commit, raise, ret.
  fold tenant. simpl staged; simpl durable. rewrite flush_app.
  destruct (flush (staged s) (durable s)) as [[db' ins]|e].
  - simpl apply_op. change (Tenant.name tenant) with (TenantCreateModel.name data).
    destruct (existsb (has_name (TenantCreateModel.name data)) (rows db')).
    + reflexivity.
    + unfold refreshed. now rewrite last_last.
  - destruct e; reflexivity.
Qed.

(** C6: for an id with no tenant record, [get_tenant] and [delete_tenant]
    raise [HTTPException] with status 404 (and the routes answer 404); for
    a name with no tenant record, [show_tenant] of the admin context
    returns the structured error with detail "Tenant not found", the name
    having resolved to no id. *)
Theorem absent_tenant_not_found (i : Z) (n : string) (db : Database) (ops : list op) :
  (forall r, In r (rows db) -> Tenant.id r <> i) ->
  (forall r, In r (rows db) -> Tenant.name r <> n) ->
  let s := mkSession db ops in
  tenant.get_tenant i s = (Raise (HTTPException HTTP_404_NOT_FOUND None), s) /\
  tenant.delete_tenant i s = (Raise (HTTPException HTTP_404_NOT_FOUND None), s) /\
  tenant.status (fst (tenant.GET_tenants_id i db)) = 404 /\
  tenant.status (fst (tenant.DELETE_tenants_id i db)) = 404 /\
  snd (tenant.DELETE_tenants_id i db) = db /\
  AdminContext.get_tenant_id n db = Return None /\
  AdminContext.show_tenant n db =
    (Return (VDict [("error", VDict [("detail", VStr "Tenant not found")])]), db).
Proof.
  intros Hid Hname s. repeat split.
  - now apply get_tenant_absent.
  - now apply delete_tenant_absent.
  - unfold tenant.GET_tenants_id, tenant.serve. now rewrite get_tenant_absent.
  - unfold tenant.DELETE_tenants_id, tenant.serve. now rewrite delete_tenant_absent.
  - unfold tenant.DELETE_tenants_id, tenant.serve. now rewrite delete_tenant_absent.
  - now apply get_tenant_id_absent.
  - unfold AdminContext.show_tenant. now rewrite get_tenant_id_absent.
Qed.

(** C10: a [create_tenant] call that fails has failed with the Conflict
    raised for the commit's integrity error, and leaves the stored tenant
    records as they were, with nothing staged. *)
Theorem create_tenant_failure_is_atomic (data : TenantCreateModel.t)
  (s s' : Session) (e : exn) :
  tenant.create_tenant data s = (Raise e, s') ->
  (exists msg, e = HTTPException HTTP_409_CONFLICT (Some msg)) /\
  durable s' = durable s /\
  staged s' = [].
Proof.
  rewrite create_tenant_cases.
  destruct (flush (staged s) (durable s)) as [[db' ins]|e0] eqn:E.
  - destruct (existsb _ _); intros H; inversion H; subst; simpl; eauto.
  - destruct (flush_raises _ _ _ E) as [msg ->].
    intros H; inversion H; subst; simpl; eauto.
Qed.

(** C4: after [create_tenant] has returned a tenant, [get_tenant] with the
    assigned id succeeds, in the same session and on a request of its own,
    and returns the created record: same id, name and ssh_key. *)
Theorem created_tenant_is_found (data : TenantCreateModel.t) (s s' : Session) (v : value) :
  wf (durable s) ->
  tenant.create_tenant data s = (Return v, s') ->
  exists t,
    v = tenant_result "post" t /\
    Tenant.name t = TenantCreateModel.name data /\
    Tenant.ssh_key t = TenantCreateModel.ssh_key data /\
    In t (rows (durable s')) /\
    tenant.get_tenant (Tenant.id t) s' = (Return (tenant_result "get" t), s') /\
    tenant.GET_tenants_id (Tenant.id t) (durable s') =
      (tenant.mkResponse 200 (tenant_result "get" t), durable s').
Proof.
  intros Hwf. rewrite create_tenant_cases.
  destruct (flush (staged s) (durable s)) as [[db' ins]|e0] eqn:E.
  2: { destruct e0; discriminate. }
  destruct (existsb _ _) eqn:Ex; [discriminate|].
  intros H; inversion H; subst; clear H.
  set (t := Tenant.set_id (next_id db') _).
  assert (Hwf' : wf (mkDatabase (rows db' ++ [t]) (next_id db' + 1))).
  { eapply (apply_op_wf db' _
              (OpAdd (tenant.Tenant_new (TenantCreateModel.name data)
                        (TenantCreateModel.is_admin data) (TenantCreateModel.api_key data)
                        (TenantCreateModel.ssh_key data))));
      [eapply flush_wf; eauto|].
    unfold apply_op. simpl Tenant.name. rewrite Ex. reflexivity. }
  assert (Hin : In t (rows db' ++ [t])) by (apply in_or_app; right; now left).
  exists t. repeat split; try assumption.
  - now apply get_tenant_present.
  - unfold tenant.GET_tenants_id, tenant.serve.
    rewrite get_tenant_present; [reflexivity|assumption|assumption].
Qed.

Lemma same_id_same_row (l : list Tenant.t) (r t : Tenant.t) :
  NoDup (map Tenant.id l) -> In r l -> In t l -> Tenant.id r = Tenant.id t -> r = t.
Proof.
  intros Hnd Hr Ht Hid.
  assert (H : In r (filter (has_id (Tenant.id t)) l)).
  { apply filter_In. split; [assumption|]. now apply has_id_true. }
  rewrite filter_has_id in H by assumption.
  destruct H as [H | []]. now symmetry.
Qed.

(** C7: for an id with a tenant record, [delete_tenant] removes that
    record and no other, has committed when it returns (the removal is
    durable and nothing is staged), and returns the values the record had
    before the deletion under the action "delete"; a later [get_tenant] of
    the id finds nothing. *)
Theorem delete_tenant_removes_record (db : Database) (t : Tenant.t) :
  wf db ->
  In t (rows db) ->
  let db' := mkDatabase (remove_row t (rows db)) (next_id db) in
  tenant.delete_tenant (Tenant.id t) (session_maker db) =
    (Return (VDict [("action", VStr "delete"); ("tenant", VTenant t)]),
     mkSession db' []) /\
  (forall r, In r (rows db') <-> In r (rows db) /\ r <> t) /\
  tenant.DELETE_tenants_id (Tenant.id t) db =
    (tenant.mkResponse 200 (VDict [("action", VStr "delete"); ("tenant", VTenant t)]),
     db') /\
  tenant.get_tenant (Tenant.id t) (session_maker db') =
    (Raise (HTTPException HTTP_404_NOT_FOUND None), session_maker db').
Proof.
  intros Hwf Hin db'.
  assert (Hdel : tenant.delete_tenant (Tenant.id t) (session_maker db) =
                 (Return (tenant_result "delete" t), mkSession db' [])).
  { destruct Hwf as (Hid & _).
    unfold tenant.delete_tenant, bind, execute_select_by_id, session_maker.
    simpl durable. now rewrite filter_has_id. }
  assert (Hrows : forall r, In r (rows db') <-> In r (rows db) /\ r <> t).
  { intros r. unfold db', remove_row; simpl. rewrite filter_In, negb_true_iff, has_id_false.
    destruct Hwf as (Hid & _). split; intros [Hr Hne]; split; try assumption.
    - intros ->. now apply Hne.
    - intros Heq. apply Hne. eapply same_id_same_row; eauto. }
  repeat split.
  - exact Hdel.
  - now apply Hrows.
  - now apply Hrows.
  - intros [Hr Hne]. now apply Hrows.
  - unfold tenant.DELETE_tenants_id, tenant.serve. now rewrite Hdel.
  - apply get_tenant_absent. simpl. intros r Hr Heq.
    apply Hrows in Hr as [Hr Hne]. apply Hne.
    destruct Hwf as (Hid & _). eapply same_id_same_row; eauto.
Qed.

Lemma POST_tenants_cases (data : TenantCreateModel.t) (db : Database) :
  let tenant :=
    tenant.Tenant_new (TenantCreateModel.name data) (TenantCreateModel.is_admin data)
      (TenantCreateModel.api_key data) (TenantCreateModel.ssh_key data) in
  tenant.POST_tenants data db =
  if existsb (has_name (TenantCreateModel.name data)) (rows db)
  then (tenant.mkResponse 409 (VDict [("detail", VStr (integrity_message tenant))]), db)
  else
    let t := Tenant.set_id (next_id db) tenant in
    (tenant.mkResponse 201 (VDict [("action", VStr "post"); ("tenant", VTenant t)]),
     mkDatabase (rows db ++ [t]) (next_id db + 1)).
Proof.
  intros tenant. unfold tenant.POST_tenants, tenant.serve.
  rewrite create_tenant_cases. simpl.
  destruct (existsb (has_name (TenantCreateModel.name data)) (rows db)); reflexivity.
Qed.

(** C5: of two [create_tenant] requests with the same name, the second
    raises [HTTPException] with status 409 whose detail is the message of
    the store's integrity error, and is answered 409 with that detail; the
    first, when the name is not yet taken, is answered 201 with the
    persisted record, which carries the id the store assigned (it is
    refused in the same way when the name is already taken). *)
Theorem second_create_conflicts (db : Database) (d1 d2 : TenantCreateModel.t) :
  TenantCreateModel.name d1 = TenantCreateModel.name d2 ->
  let new d :=
    tenant.Tenant_new (TenantCreateModel.name d) (TenantCreateModel.is_admin d)
      (TenantCreateModel.api_key d) (TenantCreateModel.ssh_key d) in
  let t1 := Tenant.set_id (next_id db) (new d1) in
  let db1 := snd (tenant.POST_tenants d1 db) in
  tenant.POST_tenants d1 db =
    (if existsb (has_name (TenantCreateModel.name d1)) (rows db)
     then (tenant.mkResponse 409 (VDict [("detail", VStr (integrity_message (new d1)))]), db)
     else (tenant.mkResponse 201 (VDict [("action", VStr "post"); ("tenant", VTenant t1)]),
           mkDatabase (rows db ++ [t1]) (next_id db + 1))) /\
  tenant.create_tenant d2 (session_maker db1) =
    (Raise (HTTPException HTTP_409_CONFLICT (Some (integrity_message (new d2)))),
     session_maker db1) /\
  tenant.POST_tenants d2 db1 =
    (tenant.mkResponse 409 (VDict [("detail", VStr (integrity_message (new d2)))]), db1).
Proof.
  intros Hname new t1 db1.
  assert (Htaken : existsb (has_name (TenantCreateModel.name d2)) (rows db1) = true).
  { unfold db1. rewrite POST_tenants_cases, <- Hname.
    destruct (existsb (has_name (TenantCreateModel.name d1)) (rows db)) eqn:E; simpl.
    - exact E.
    - rewrite existsb_app. simpl. unfold has_name at 2. simpl.
      rewrite String.eqb_refl. now rewrite orb_true_r. }
  repeat split.
  - apply POST_tenants_cases.
  - rewrite create_tenant_cases. simpl. now rewrite Htaken.
  - rewrite POST_tenants_cases. now rewrite Htaken.
Qed.

End ControllerProperties.

(** ** The admin context *)

Section AdminProperties.

Context {imp : Imported}.

(** C1: when the controller function raises, the proxy returns the
    structured error with the exception's detail if the exception is an
    [HTTPException], and lets every other exception through to its caller;
    either way the session is rolled back: nothing stays staged and the
    committed state is the one the controller function left. *)
Theorem proxy_catches_HTTPException_only (f : controller_function)
  (kw keywords : kwargs) (db : Database) (e : exn) (s : Session) :
  AdminContext.proxy_keywords kw = Return keywords ->
  call f keywords (session_maker db) = (Raise e, s) ->
  AdminContext.proxy_controller_function_async f kw db =
    match e with
    | HTTPException status_code detail =>
        (Return (VDict [("error", VDict [("detail", VStr (exc_detail status_code detail))])]),
         rollback s)
    | _ => (Raise e, rollback s)
    end /\
  staged (rollback s) = [] /\
  durable (rollback s) = durable s.
Proof.
  intros Hkw Hcall. unfold AdminContext.proxy_controller_function_async.
  rewrite Hkw, Hcall. destruct e; repeat split.
Qed.

(** What the controller function returns is returned. *)
Lemma proxy_returns (f : controller_function) (kw keywords : kwargs)
  (db db' : Database) (v : value) :
  AdminContext.proxy_keywords kw = Return keywords ->
  call f keywords (session_maker db) = (Return v, mkSession db' []) ->
  AdminContext.proxy_controller_function f kw db = (Return v, db').
Proof.
  intros Hkw Hcall.
  unfold AdminContext.proxy_controller_function,
    AdminContext.proxy_controller_function_async.
  rewrite Hkw, Hcall. reflexivity.
Qed.


Lemma same_name_same_row (l : list Tenant.t) (r t : Tenant.t) :
  NoDup (map Tenant.name l) -> In r l -> In t l -> Tenant.name r = Tenant.name t -> r = t.
Proof.
  intros Hnd Hr Ht Hname.
  assert (H : In r (filter (has_name (Tenant.name t)) l)).
  { apply filter_In. split; [assumption|]. now apply has_name_true. }
  rewrite filter_has_name in H by assumption.
  destruct H as [H | []]. now symmetry.
Qed.

(** The controller module defines no [update_tenant]. *)
Lemma getattr_update_tenant :
  tenant.getattr "update_tenant" = Raise (AttributeError "update_tenant").
Proof. reflexivity. Qed.

(** C3: on a tenant that exists, [retire_unretire_tenant] raises
    [AttributeError], in either direction: the controller module has no
    [update_tenant] to delegate to. The store is left as it is, so [active]
    is not changed. On a name with no tenant the structured error with
    detail "Tenant not found" is returned and the store is untouched. *)
Theorem retire_unretire_tenant_raises (db : Database) (t : Tenant.t) (n : string)
  (retire : bool) :
  wf db ->
  In t (rows db) ->
  (forall r, In r (rows db) -> Tenant.name r <> n) ->
  AdminContext.retire_unretire_tenant (Tenant.name t) retire db =
    (Raise (AttributeError "update_tenant"), db) /\
  AdminContext.retire_unretire_tenant n retire db =
    (Return (VDict [("error", VDict [("detail", VStr "Tenant not found")])]), db).
Proof.
  intros Hwf Hin Habsent. unfold AdminContext.retire_unretire_tenant. split.
  - rewrite get_tenant_id_present by assumption. now rewrite getattr_update_tenant.
  - now rewrite get_tenant_id_absent.
Qed.

(** C8: on a tenant that exists, [update_tenant] of the admin context
    raises [AttributeError], whatever optional fields are passed, with only
    [node_quota] or with none: the controller module has no [update_tenant]
    to delegate to. The store is left as it is, so [node_quota] is not
    changed either. *)
Theorem update_tenant_raises (db : Database) (t : Tenant.t)
  (api_key ssh_key : arg string)
  (node_quota session_lifetime session_lifetime_max : arg Z) :
  wf db ->
  In t (rows db) ->
  AdminContext.update_tenant (Tenant.name t) api_key ssh_key node_quota
    session_lifetime session_lifetime_max db =
    (Raise (AttributeError "update_tenant"), db).
Proof.
  intros Hwf Hin. unfold AdminContext.update_tenant.
  rewrite get_tenant_id_present by assumption. now rewrite getattr_update_tenant.
Qed.

(** C9: through the admin context's [create_tenant], whatever keywords
    the shared create operation accepts, the outcome and the store do not
    depend on [node_quota], [session_lifetime] and [session_lifetime_max]:
    the only record that can be added carries the name, is_admin, api_key
    and ssh_key of the payload and the column defaults in its three
    resource-governance attributes. *)
Theorem create_tenant_drops_governance (name ssh_key : string)
  (node_quota session_lifetime session_lifetime_max : option Z) (is_admin : bool)
  (ps : list string) (db : Database) :
  let data :=
    TenantCreateModel.mk name is_admin create_api_key_default (Some ssh_key)
      node_quota session_lifetime session_lifetime_max in
  let plain :=
    TenantCreateModel.mk name is_admin create_api_key_default (Some ssh_key)
      None None None in
  let tenant := tenant.Tenant_new name is_admin create_api_key_default (Some ssh_key) in
  let t := Tenant.set_id (next_id db) tenant in
  AdminContext.proxy_controller_function
    (mkFunction ps (body tenant.def_create_tenant))
    [("data", VTenantCreateModel data)] db =
    match find (fun k => negb (mem k ps)) ["tenant"; "db_async_session"; "data"] with
    | Some k => (Raise (TypeError k), db)
    | None =>
        if existsb (has_name name) (rows db)
        then (Return (VDict [("error", VDict [("detail", VStr (integrity_message tenant))])]),
              db)
        else (Return (tenant_result "post" t),
              mkDatabase (rows db ++ [t]) (next_id db + 1))
    end /\
  (Tenant.name t = name /\ Tenant.is_admin t = is_admin /\
   Tenant.api_key t = create_api_key_default /\ Tenant.ssh_key t = Some ssh_key) /\
  (Tenant.node_quota t = Tenant.node_quota column_defaults /\
   Tenant.session_lifetime t = Tenant.session_lifetime column_defaults /\
   Tenant.session_lifetime_max t = Tenant.session_lifetime_max column_defaults) /\
  (forall s, tenant.create_tenant data s = tenant.create_tenant plain s) /\
  AdminContext.create_tenant name ssh_key node_quota session_lifetime
    session_lifetime_max is_admin db =
  AdminContext.create_tenant name ssh_key None None None is_admin db.
Proof.
  intros data plain tenant t.
  split; [|split; [|split; [|split]]].
  - unfold AdminContext.proxy_controller_function,
      AdminContext.proxy_controller_function_async.
    change (AdminContext.proxy_keywords _) with
      (Return [("tenant", VFakeAPITenant); ("db_async_session", VSession);
               ("data", VTenantCreateModel data)]).
    unfold call. cbn [parameters body map fst].
    destruct (find _ _) as [k|]; [reflexivity|].
    change (body tenant.def_create_tenant _ (session_maker db))
      with (tenant.create_tenant data (session_maker db)).
    rewrite create_tenant_cases. cbn [session_maker staged durable flush].
    cbn [TenantCreateModel.name TenantCreateModel.is_admin TenantCreateModel.api_key
         TenantCreateModel.ssh_key data].
    fold tenant. destruct (existsb (has_name name) (rows db)); reflexivity.
  - repeat split.
  - repeat split.
  - intros s. reflexivity.
  - reflexivity.
Qed.


End AdminProperties.

(** ** Further properties of the controller *)

Section ControllerFurther.

Context {imp : Imported}.

Lemma remove_row_In (t r : Tenant.t) (l : list Tenant.t) :
  In r (remove_row t l) <-> In r l /\ Tenant.id r <> Tenant.id t.
Proof.
  unfold remove_row. now rewrite filter_In, negb_true_iff, has_id_false.
Qed.

Lemma delete_tenant_present (t : Tenant.t) (db : Database) :
  wf db -> In t (rows db) ->
  tenant.delete_tenant (Tenant.id t) (session_maker db) =
    (Return (tenant_result "delete" t),
     mkSession (mkDatabase (remove_row t (rows db)) (next_id db)) []).
Proof.
  intros (Hid & _) Hin.
  unfold tenant.delete_tenant, bind, execute_select_by_id, session_maker.
  simpl durable. now rewrite filter_has_id.
Qed.

Lemma DELETE_present (t : Tenant.t) (db : Database) :
  wf db -> In t (rows db) ->
  tenant.DELETE_tenants_id (Tenant.id t) db =
    (tenant.mkResponse 200 (tenant_result "delete" t),
     mkDatabase (remove_row t (rows db)) (next_id db)).
Proof.
  intros Hwf Hin. unfold tenant.DELETE_tenants_id, tenant.serve.
  now rewrite delete_tenant_present.
Qed.

Lemma GET_present (t : Tenant.t) (db : Database) :
  wf db -> In t (rows db) ->
  tenant.GET_tenants_id (Tenant.id t) db =
    (tenant.mkResponse 200 (tenant_result "get" t), db).
Proof.
  intros Hwf Hin. unfold tenant.GET_tenants_id, tenant.serve.
  now rewrite get_tenant_present.
Qed.

Lemma GET_absent (i : Z) (db : Database) :
  (forall r, In r (rows db) -> Tenant.id r <> i) ->
  tenant.GET_tenants_id i db =
    (tenant.mkResponse 404 (VDict [("detail", VStr (status_phrase 404))]), db).
Proof.
  intros H. unfold tenant.GET_tenants_id, tenant.serve.
  now rewrite get_tenant_absent.
Qed.

Lemma DELETE_absent (i : Z) (db : Database) :
  (forall r, In r (rows db) -> Tenant.id r <> i) ->
  tenant.DELETE_tenants_id i db =
    (tenant.mkResponse 404 (VDict [("detail", VStr (status_phrase 404))]), db).
Proof.
  intros H. unfold tenant.DELETE_tenants_id, tenant.serve.
  now rewrite delete_tenant_absent.
Qed.

Lemma wf_after_remove (db : Database) (t : Tenant.t) :
  wf db -> wf (mkDatabase (remove_row t (rows db)) (next_id db)).
Proof.
  intros Hwf. now apply (apply_op_wf db _ (OpDelete t) []).
Qed.

(** X3: on a well-formed store [get_tenant] answers by the one row of the
    given id: it returns that row when there is one and raises 404 when
    there is none, never more than one result; the route answers 200 or
    404 accordingly and leaves the store as it is. *)
Theorem get_tenant_exact (db : Database) (i : Z) (ops : list op) :
  wf db ->
  let s := mkSession db ops in
  tenant.get_tenant i s =
    match find (has_id i) (rows db) with
    | Some t => (Return (VDict [("action", VStr "get"); ("tenant", VTenant t)]), s)
    | None => (Raise (HTTPException HTTP_404_NOT_FOUND None), s)
    end /\
  tenant.status (fst (tenant.GET_tenants_id i db)) =
    (if existsb (has_id i) (rows db) then 200 else 404) /\
  snd (tenant.GET_tenants_id i db) = db.
Proof.
  intros Hwf s.
  destruct (find (has_id i) (rows db)) as [t|] eqn:E.
  - apply find_some in E as [Hin Hid]. apply has_id_true in Hid. subst i.
    assert (Hex : existsb (has_id (Tenant.id t)) (rows db) = true).
    { apply existsb_exists. exists t. split; [assumption|now apply has_id_true]. }
    rewrite Hex, GET_present by assumption.
    repeat split. now apply get_tenant_present.
  - assert (Hnone : forall r, In r (rows db) -> Tenant.id r <> i).
    { intros r Hr. apply has_id_false. revert r Hr. now apply find_none. }
    assert (Hex : existsb (has_id i) (rows db) = false).
    { apply existsb_false. intros r Hr. apply has_id_false. now apply Hnone. }
    rewrite Hex, GET_absent by assumption.
    repeat split. now apply get_tenant_absent.
Qed.

(** X1: a request for the collection after a create request lists
    exactly the tenants stored before and, when the name was free, the
    created tenant, the one the create request returned; when the create
    was refused it lists exactly the tenants stored before. *)
Theorem created_tenant_is_listed (db : Database) (data : TenantCreateModel.t) :
  let db1 := snd (tenant.POST_tenants data db) in
  exists listed,
    tenant.GET_tenants db1 =
      (tenant.mkResponse 200
         (VDict [("action", VStr "get"); ("tenants", VList (map VTenant listed))]),
       db1) /\
    if existsb (has_name (TenantCreateModel.name data)) (rows db)
    then forall r, In r listed <-> In r (rows db)
    else exists t,
        fst (tenant.POST_tenants data db) =
          tenant.mkResponse 201 (VDict [("action", VStr "post"); ("tenant", VTenant t)]) /\
        forall r, In r listed <-> In r (rows db) \/ r = t.
Proof.
  intros db1. exists (rows db1). split; [reflexivity|].
  unfold db1. rewrite POST_tenants_cases.
  destruct (existsb (has_name (TenantCreateModel.name data)) (rows db)); simpl.
  - intros r. reflexivity.
  - eexists. split; [reflexivity|]. intros r. rewrite in_app_iff. simpl.
    intuition congruence.
Qed.

(** X6: deleting is not repeatable. After a tenant was deleted, a second
    delete request for its id is answered 404 and changes nothing, while
    every other tenant is still found under its id. *)
Theorem second_delete_not_found (db : Database) (t : Tenant.t) :
  wf db ->
  In t (rows db) ->
  let db1 := snd (tenant.DELETE_tenants_id (Tenant.id t) db) in
  tenant.DELETE_tenants_id (Tenant.id t) db1 =
    (tenant.mkResponse 404 (VDict [("detail", VStr (status_phrase 404))]), db1) /\
  (forall r, In r (rows db) -> r <> t ->
     tenant.GET_tenants_id (Tenant.id r) db1 =
       (tenant.mkResponse 200 (VDict [("action", VStr "get"); ("tenant", VTenant r)]),
        db1)).
Proof.
  intros Hwf Hin db1.
  assert (Hdb1 : db1 = mkDatabase (remove_row t (rows db)) (next_id db)).
  { unfold db1. now rewrite DELETE_present. }
  assert (Hwf1 : wf db1) by (rewrite Hdb1; now apply wf_after_remove).
  split.
  - apply DELETE_absent. rewrite Hdb1. simpl. intros r Hr.
    now apply remove_row_In in Hr.
  - intros r Hr Hne. apply GET_present; [assumption|].
    rewrite Hdb1. simpl. apply remove_row_In. split; [assumption|].
    intros Heq. apply Hne. destruct Hwf as (Hid & _).
    eapply same_id_same_row; eauto.
Qed.

(** X14: a request for the collection after a tenant was deleted lists
    exactly the tenants stored before other than the deleted one. *)
Theorem deleted_tenant_is_not_listed (db : Database) (t : Tenant.t) :
  wf db ->
  In t (rows db) ->
  let db1 := snd (tenant.DELETE_tenants_id (Tenant.id t) db) in
  exists listed,
    tenant.GET_tenants db1 =
      (tenant.mkResponse 200
         (VDict [("action", VStr "get"); ("tenants", VList (map VTenant listed))]),
       db1) /\
    forall r, In r listed <-> In r (rows db) /\ r <> t.
Proof.
  intros Hwf Hin db1. exists (rows db1). split; [reflexivity|].
  unfold db1. rewrite DELETE_present by assumption. simpl.
  intros r. rewrite remove_row_In. destruct Hwf as (Hid & _).
  split; intros [Hr Hne]; split; try assumption.
  - intros ->. now apply Hne.
  - intros Heq. apply Hne. eapply same_id_same_row; eauto.
Qed.

End ControllerFurther.

(** ** Further properties of the admin context *)

Section AdminFurther.

Context {imp : Imported}.

(** X7: on a well-formed store [get_tenant_id] resolves a name exactly:
    it returns no id precisely when no tenant has the name, and an id
    precisely when the tenant of that name has it. *)
Theorem get_tenant_id_exact (db : Database) (n : string) :
  wf db ->
  AdminContext.get_tenant_id n db =
    Return (option_map Tenant.id (find (has_name n) (rows db))) /\
  (AdminContext.get_tenant_id n db = Return None <->
   forall r, In r (rows db) -> Tenant.name r <> n) /\
  (forall i, AdminContext.get_tenant_id n db = Return (Some i) <->
             exists t, In t (rows db) /\ Tenant.name t = n /\ Tenant.id t = i).
Proof.
  intros Hwf.
  destruct (find (has_name n) (rows db)) as [t|] eqn:E.
  - apply find_some in E as [Hin Hn]. apply has_name_true in Hn. subst n.
    assert (Hres : AdminContext.get_tenant_id (Tenant.name t) db =
                   Return (Some (Tenant.id t)))
      by now apply get_tenant_id_present.
    rewrite Hres. split; [reflexivity|]. split.
    + split; [discriminate|]. intros H. exfalso. now apply (H t Hin).
    + intros i. split.
      * intros H. inversion H; subst. now exists t.
      * intros (r & Hr & Hname & <-). destruct Hwf as (_ & Hnd & _).
        now rewrite (same_name_same_row _ _ _ Hnd Hr Hin Hname).
  - assert (Hnone : forall r, In r (rows db) -> Tenant.name r <> n).
    { intros r Hr. apply has_name_false. revert r Hr. now apply find_none. }
    rewrite get_tenant_id_absent by assumption.
    split; [reflexivity|]. split.
    + split; [intros _; exact Hnone|reflexivity].
    + intros i. split; [discriminate|].
      intros (r & Hr & Hname & _). exfalso. now apply (Hnone r Hr).
Qed.



(** X10: a keyword argument named [tenant] or [db_async_session] clashes
    with the two keywords the proxy passes itself: the call raises
    [TypeError] for whatever controller function, and the store stays as it
    is. *)
Theorem proxy_rejects_clashing_keyword (f : controller_function) (kw : kwargs)
  (db : Database) (k : string) (v : value) :
  In (k, v) kw ->
  k = "tenant" \/ k = "db_async_session" ->
  exists k',
    (k' = "tenant" \/ k' = "db_async_session") /\
    AdminContext.proxy_controller_function f kw db = (Raise (TypeError k'), db).
Proof.
  intros Hin Hk.
  destruct (find (fun k => mem k ["tenant"; "db_async_session"]) (map fst kw))
    as [k'|] eqn:E.
  - exists k'. split.
    + apply find_some in E as [_ Hmem]. unfold mem in Hmem. simpl in Hmem.
      rewrite orb_false_r in Hmem. apply orb_true_iff in Hmem as [H | H];
        apply String.eqb_eq in H; auto.
    + unfold AdminContext.proxy_controller_function,
        AdminContext.proxy_controller_function_async, AdminContext.proxy_keywords.
      now rewrite E.
  - exfalso.
    assert (Hmem : mem k ["tenant"; "db_async_session"] = false).
    { apply (find_none _ _ E). apply in_map_iff. now exists (k, v). }
    destruct Hk as [-> | ->]; discriminate.
Qed.


(** X12: [update_tenant] of the admin context on a name that no tenant
    has returns the structured error with detail "Tenant not found",
    whatever optional fields are passed, and leaves the store as it is. *)
Theorem update_tenant_unknown_name (db : Database) (n : string)
  (api_key ssh_key : arg string)
  (node_quota session_lifetime session_lifetime_max : arg Z) :
  (forall r, In r (rows db) -> Tenant.name r <> n) ->
  AdminContext.update_tenant n api_key ssh_key node_quota session_lifetime
    session_lifetime_max db =
  (Return (VDict [("error", VDict [("detail", VStr "Tenant not found")])]), db).
Proof.
  intros H. unfold AdminContext.update_tenant.
  now rewrite get_tenant_id_absent.
Qed.

(** X13: in the dictionary [update_tenant] builds, an optional field is
    missing exactly when it was left at [UNSET]; a field passed as [None]
    is present with the value [None], a field passed as a value is present
    with that value, and [name] is never present. *)
Theorem update_tenant_data_lookup (name : string) (api_key ssh_key : arg string)
  (node_quota session_lifetime session_lifetime_max : arg Z) (tenant_id : Z) :
  let data :=
    AdminContext.update_tenant_data
      (AdminContext.update_tenant_locals name api_key ssh_key node_quota
         session_lifetime session_lifetime_max tenant_id) in
  let present {A} (inj : A -> value) (a : arg A) : option value :=
    match a with
    | UNSET => None
    | Passed None => Some VNone
    | Passed (Some x) => Some (inj x)
    end in
  lookup "api_key" data = present VStr api_key /\
  lookup "ssh_key" data = present VStr ssh_key /\
  lookup "node_quota" data = present VInt node_quota /\
  lookup "session_lifetime" data = present VTimedelta session_lifetime /\
  lookup "session_lifetime_max" data = present VTimedelta session_lifetime_max /\
  lookup "name" data = None.
Proof.
  destruct api_key as [|[?|]], ssh_key as [|[?|]], node_quota as [|[?|]],
    session_lifetime as [|[?|]], session_lifetime_max as [|[?|]];
    repeat split.
Qed.

End AdminFurther.

(** ** The theorems at work on a concrete store *)

#[local] Existing Instance example_imported.

Lemma example_db_wf : wf example_db.
Proof.
  unfold wf, example_db; simpl. repeat split.
  - constructor; [intros []|constructor].
  - constructor; [intros []|constructor].
  - constructor; [simpl; lia|constructor].
Defined.

Lemma proxy_catches_HTTPException_only_witness :
  AdminContext.proxy_keywords absent_id =
    Return (("tenant", VFakeAPITenant) :: ("db_async_session", VSession) :: absent_id) /\
  call def_get_tenant_as_caller
    (("tenant", VFakeAPITenant) :: ("db_async_session", VSession) :: absent_id)
    (session_maker example_db) =
    (Raise (HTTPException HTTP_404_NOT_FOUND None), session_maker example_db) /\
  AdminContext.proxy_controller_function_async def_get_tenant_as_caller
    absent_id example_db =
    (Return (VDict [("error", VDict [("detail", VStr "Not Found")])]),
     session_maker example_db).
Proof.
  split; [reflexivity|split; [reflexivity|]].
  exact (proj1 (proxy_catches_HTTPException_only def_get_tenant_as_caller absent_id
                  _ example_db _ _ eq_refl eq_refl)).
Defined.

(** C1 as stated fails: the proxy lets through the [TypeError] of the
    call of [get_all_tenants], whose signature has no [tenant] parameter,
    and the [IntegrityError] of a controller function that commits a
    duplicate name. *)
Lemma proxy_propagates_other_exceptions :
  AdminContext.proxy_controller_function tenant.def_get_all_tenants [] example_db =
    (Raise (TypeError "tenant"), example_db) /\
  AdminContext.list_tenants example_db = (Raise (TypeError "tenant"), example_db) /\
  AdminContext.proxy_controller_function (def_add_and_commit alice) [] example_db =
    (Raise (IntegrityError "UNIQUE constraint failed: tenants.name"), example_db).
Proof. repeat split. Qed.

Lemma retire_unretire_tenant_raises_witness :
  wf example_db /\
  In alice (rows example_db) /\
  (forall r, In r (rows example_db) -> Tenant.name r <> "bob") /\
  AdminContext.retire_unretire_tenant "alice" true example_db =
    (Raise (AttributeError "update_tenant"), example_db) /\
  AdminContext.retire_unretire_tenant "bob" true example_db =
    (Return (VDict [("error", VDict [("detail", VStr "Tenant not found")])]), example_db).
Proof.
  assert (H : forall r, In r (rows example_db) -> Tenant.name r <> "bob").
  { intros r [<- | []]. discriminate. }
  split; [exact example_db_wf|]. split; [now left|]. split; [exact H|].
  exact (retire_unretire_tenant_raises example_db alice "bob" true example_db_wf
           (or_introl eq_refl) H).
Defined.

Lemma created_tenant_is_found_witness :
  wf (durable (session_maker example_db)) /\
  tenant.create_tenant bob_data (session_maker example_db) =
    (Return (tenant_result "post" bob), session_maker (mkDatabase [alice; bob] 3)) /\
  exists t,
    tenant_result "post" bob = tenant_result "post" t /\
    Tenant.name t = "bob" /\
    Tenant.ssh_key t = Some "ssh-rsa BBB" /\
    In t [alice; bob] /\
    tenant.get_tenant (Tenant.id t) (session_maker (mkDatabase [alice; bob] 3)) =
      (Return (tenant_result "get" t), session_maker (mkDatabase [alice; bob] 3)) /\
    tenant.GET_tenants_id (Tenant.id t) (mkDatabase [alice; bob] 3) =
      (tenant.mkResponse 200 (tenant_result "get" t), mkDatabase [alice; bob] 3).
Proof.
  split; [exact example_db_wf|]. split; [reflexivity|].
  exact (created_tenant_is_found bob_data (session_maker example_db)
           (session_maker (mkDatabase [alice; bob] 3)) (tenant_result "post" bob)
           example_db_wf eq_refl).
Defined.

Lemma second_create_conflicts_witness :
  TenantCreateModel.name bob_data = TenantCreateModel.name bob_data /\
  tenant.POST_tenants bob_data example_db =
    (tenant.mkResponse 201 (VDict [("action", VStr "post"); ("tenant", VTenant bob)]),
     mkDatabase [alice; bob] 3) /\
  tenant.POST_tenants bob_data (mkDatabase [alice; bob] 3) =
    (tenant.mkResponse 409
       (VDict [("detail", VStr "UNIQUE constraint failed: tenants.name")]),
     mkDatabase [alice; bob] 3).
Proof.
  split; [reflexivity|].
  destruct (second_create_conflicts example_db bob_data bob_data eq_refl)
    as (H1 & _ & H3).
  split; [exact H1|exact H3].
Defined.

Lemma absent_tenant_not_found_witness :
  (forall r, In r (rows example_db) -> Tenant.id r <> 7) /\
  (forall r, In r (rows example_db) -> Tenant.name r <> "bob") /\
  tenant.get_tenant 7 (session_maker example_db) =
    (Raise (HTTPException HTTP_404_NOT_FOUND None), session_maker example_db) /\
  tenant.delete_tenant 7 (session_maker example_db) =
    (Raise (HTTPException HTTP_404_NOT_FOUND None), session_maker example_db) /\
  AdminContext.show_tenant "bob" example_db =
    (Return (VDict [("error", VDict [("detail", VStr "Tenant not found")])]), example_db).
Proof.
  assert (Hid : forall r, In r (rows example_db) -> Tenant.id r <> 7).
  { intros r [<- | []]. discriminate. }
  assert (Hname : forall r, In r (rows example_db) -> Tenant.name r <> "bob").
  { intros r [<- | []]. discriminate. }
  split; [exact Hid|]. split; [exact Hname|].
  destruct (absent_tenant_not_found 7 "bob" example_db [] Hid Hname)
    as (H1 & H2 & _ & _ & _ & _ & H3).
  split; [exact H1|]. split; [exact H2|exact H3].
Defined.

Lemma delete_tenant_removes_record_witness :
  wf example_db /\
  In alice (rows example_db) /\
  tenant.delete_tenant 1 (session_maker example_db) =
    (Return (VDict [("action", VStr "delete"); ("tenant", VTenant alice)]),
     mkSession (mkDatabase [] 2) []) /\
  tenant.DELETE_tenants_id 1 example_db =
    (tenant.mkResponse 200 (VDict [("action", VStr "delete"); ("tenant", VTenant alice)]),
     mkDatabase [] 2).
Proof.
  split; [exact example_db_wf|]. split; [now left|].
  destruct (delete_tenant_removes_record example_db alice example_db_wf
              (or_introl eq_refl)) as (H1 & _ & H3 & _).
  split; [exact H1|exact H3].
Defined.

Lemma update_tenant_raises_witness :
  wf example_db /\
  In alice (rows example_db) /\
  AdminContext.update_tenant "alice" UNSET UNSET (Passed (Some 5)) UNSET UNSET example_db =
    (Raise (AttributeError "update_tenant"), example_db).
Proof.
  split; [exact example_db_wf|]. split; [now left|].
  exact (update_tenant_raises example_db alice UNSET UNSET (Passed (Some 5)) UNSET UNSET
           example_db_wf (or_introl eq_refl)).
Defined.

Lemma create_tenant_failure_is_atomic_witness :
  tenant.create_tenant bob_data (session_maker (mkDatabase [alice; bob] 3)) =
    (Raise (HTTPException HTTP_409_CONFLICT
              (Some "UNIQUE constraint failed: tenants.name")),
     session_maker (mkDatabase [alice; bob] 3)) /\
  durable (session_maker (mkDatabase [alice; bob] 3)) = mkDatabase [alice; bob] 3.
Proof.
  split; [reflexivity|].
  exact (proj1 (proj2 (create_tenant_failure_is_atomic bob_data
                         (session_maker (mkDatabase [alice; bob] 3))
                         (session_maker (mkDatabase [alice; bob] 3)) _ eq_refl))).
Defined.

Lemma get_tenant_exact_witness :
  wf example_db /\
  tenant.get_tenant 1 (session_maker example_db) =
    (Return (VDict [("action", VStr "get"); ("tenant", VTenant alice)]),
     session_maker example_db) /\
  tenant.status (fst (tenant.GET_tenants_id 7 example_db)) = 404.
Proof.
  split; [exact example_db_wf|].
  split.
  - exact (proj1 (get_tenant_exact example_db 1 [] example_db_wf)).
  - exact (proj1 (proj2 (get_tenant_exact example_db 7 [] example_db_wf))).
Defined.

Lemma second_delete_not_found_witness :
  wf example_db /\
  In alice (rows example_db) /\
  tenant.DELETE_tenants_id 1 (mkDatabase [] 2) =
    (tenant.mkResponse 404 (VDict [("detail", VStr "Not Found")]), mkDatabase [] 2).
Proof.
  split; [exact example_db_wf|]. split; [now left|].
  exact (proj1 (second_delete_not_found example_db alice example_db_wf
                  (or_introl eq_refl))).
Defined.

Lemma deleted_tenant_is_not_listed_witness :
  wf example_db /\
  In alice (rows example_db) /\
  exists listed,
    tenant.GET_tenants (mkDatabase [] 2) =
      (tenant.mkResponse 200
         (VDict [("action", VStr "get"); ("tenants", VList (map VTenant listed))]),
       mkDatabase [] 2) /\
    forall r, In r listed <-> In r [alice] /\ r <> alice.
Proof.
  split; [exact example_db_wf|]. split; [now left|].
  exact (deleted_tenant_is_not_listed example_db alice example_db_wf (or_introl eq_refl)).
Defined.

Lemma get_tenant_id_exact_witness :
  wf example_db /\
  AdminContext.get_tenant_id "alice" example_db = Return (Some 1) /\
  AdminContext.get_tenant_id "bob" example_db = Return None.
Proof.
  split; [exact example_db_wf|]. split.
  - exact (proj1 (get_tenant_id_exact example_db "alice" example_db_wf)).
  - exact (proj1 (get_tenant_id_exact example_db "bob" example_db_wf)).
Defined.


Lemma proxy_rejects_clashing_keyword_witness :
  In ("tenant", VNone) [("id", VInt 1); ("tenant", VNone)] /\
  ("tenant" = "tenant" \/ "tenant" = "db_async_session") /\
  exists k',
    (k' = "tenant" \/ k' = "db_async_session") /\
    AdminContext.proxy_controller_function tenant.def_get_tenant
      [("id", VInt 1); ("tenant", VNone)] example_db = (Raise (TypeError k'), example_db).
Proof.
  assert (Hin : In ("tenant", VNone) [("id", VInt 1); ("tenant", VNone)])
    by (right; now left).
  split; [exact Hin|]. split; [now left|].
  exact (proxy_rejects_clashing_keyword tenant.def_get_tenant
           [("id", VInt 1); ("tenant", VNone)] example_db "tenant" VNone Hin
           (or_introl eq_refl)).
Defined.

Lemma update_tenant_unknown_name_witness :
  (forall r, In r (rows example_db) -> Tenant.name r <> "bob") /\
  AdminContext.update_tenant "bob" UNSET (Passed None) (Passed (Some 5)) UNSET UNSET
    example_db =
  (Return (VDict [("error", VDict [("detail", VStr "Tenant not found")])]), example_db).
Proof.
  assert (H : forall r, In r (rows example_db) -> Tenant.name r <> "bob").
  { intros r [<- | []]. discriminate. }
  split; [exact H|].
  exact (update_tenant_unknown_name example_db "bob" UNSET (Passed None)
           (Passed (Some 5)) UNSET UNSET H).
Defined.
